(** * Polynomial: a shallow embedding of [isj_proj6_xsmahe01.py]

    The Python class [Polynomial] stores its coefficients in a list indexed by
    ascending degree.  Coefficients are Python integers (unbounded), modelled
    as [Z]; lists are [list Z]; strings are [string].  An operation that can
    raise [IndexError] returns [option], with [None] for the exception. *)

From stdpp Require Import base numbers list option gmap strings pretty sorting.

Local Open Scope Z_scope.

(** ** Python built-ins used by the class *)

Section builtins.
Context {A : Type}.

(** [len(l)] is a Python integer. *)
Definition len (l : list A) : Z := Z.of_nat (length l).

(** [[x] * n]: a negative [n] gives the empty list. *)
Definition py_repeat (x : A) (n : Z) : list A := replicate (Z.to_nat n) x.

(** [enumerate(l)]. *)
Definition enumerate (l : list A) : list (nat * A) := imap pair l.

(** [l[i] = x] for an index [i >= 0]: [IndexError] out of range. *)
Definition py_setitem (l : list A) (i : nat) (x : A) : option (list A) :=
  match l !! i with
  | Some _ => Some (<[i:=x]> l)
  | None => None
  end.

(** [for x in items: s = body(x, s)], where the body may raise. *)
Fixpoint for_in {State : Type} (items : list A)
    (body : A → State → option State) (s : State) : option State :=
  match items with
  | [] => Some s
  | x :: rest => s' ← body x s; for_in rest body s'
  end.
End builtins.

(** [range(n)]: empty when [n <= 0]. *)
Definition range (n : Z) : list nat := seq 0 (Z.to_nat n).

(** [l.count(x)] on a list of integers. *)
Definition py_count (l : list Z) (x : Z) : Z :=
  len (filter (λ y, y = x) l).

(** [s[n:]] on a string. *)
Fixpoint string_drop (n : nat) (s : string) : string :=
  match n, s with
  | O, _ => s
  | S n', String _ s' => string_drop n' s'
  | S _, EmptyString => EmptyString
  end.

(** ** The class *)

Record Polynomial := Build_Polynomial' { __components : list Z }.

(** The read-only property [components]. *)
Definition components (self : Polynomial) : list Z := __components self.

(** The call shapes of the constructor.  [FromList l] is a call whose first
    positional argument is the list [l]; [FromInts c cs] is a call with
    positional integers [c, cs...]; [FromKwargs kw] is a call with no
    positional argument and the named arguments [kw], where the key ["xN"] is
    represented by the integer [N = int(key[1:])] (canonical decimal keys, so
    that [f"x{N}"] is the key again); the call without any argument is
    [FromKwargs ∅].  Names that are not canonical are outside this type: a
    name such as [x01], which [int] reads as degree 1 but [f"x{1}"] does not
    find again, and a name whose suffix [int] rejects, on which the
    constructor raises [ValueError] and builds nothing. *)
Inductive init_args :=
  | FromList (l : list Z)
  | FromInts (c : Z) (cs : list Z)
  | FromKwargs (kwargs : gmap Z Z).

Definition find_highest_degree (kwargs : gmap Z Z) : Z :=
  foldl (λ highest_degree kv,
           if kv.1 >? highest_degree then kv.1 else highest_degree)
        0 (map_to_list kwargs).

Definition __init__ (a : init_args) : Polynomial :=
  match a with
  | FromList l => Build_Polynomial' l
  | FromInts c cs => Build_Polynomial' (c :: cs)
  | FromKwargs kwargs =>
      if (0 <? size kwargs)%nat then
        let highest_degree := find_highest_degree kwargs in
        Build_Polynomial'
          ((λ degree : nat, default 0 (kwargs !! Z.of_nat degree))
             <$> range (highest_degree + 1))
      else Build_Polynomial' [0]
  end.

Definition __multiply_components (self : Polynomial) (base_components : list Z)
    : option (list Z) :=
  let result_components :=
    py_repeat 0 (len (__components self) + len base_components - 1) in
  for_in (range (len base_components)) (λ outer_degree result_components,
    outer_coefficient ← base_components !! outer_degree;
    for_in (range (len (__components self))) (λ inner_degree result_components,
      inner_coefficient ← __components self !! inner_degree;
      old ← result_components !! (outer_degree + inner_degree)%nat;
      py_setitem result_components (outer_degree + inner_degree)%nat
        (old + outer_coefficient * inner_coefficient))
      result_components)
    result_components.

Definition __count_value (self : Polynomial) (x_value : Z) : Z :=
  foldl (λ accumulator dc,
           accumulator + dc.2 * x_value ^ Z.of_nat dc.1)
        0 (enumerate (__components self)).

Definition derivative (self : Polynomial) : option Polynomial :=
  let result_components := py_repeat 0 (len (__components self) - 1) in
  result_components ←
    for_in (enumerate (__components self)) (λ dc result_components,
      let degree := dc.1 in
      let coefficient := dc.2 in
      if bool_decide (degree = 0%nat) then Some result_components
      else py_setitem result_components (degree - 1)%nat
             (coefficient * Z.of_nat degree))
      result_components;
  Some (__init__ (FromList result_components)).

Definition at_value (self : Polynomial) (x_1 : Z) (x_2 : option Z) : Z :=
  let value_1 := __count_value self x_1 in
  match x_2 with
  | None => value_1
  | Some x_2 =>
      let value_2 := __count_value self x_2 in
      value_2 - value_1
  end.

(** The three pieces one loop iteration of [__str__] appends. *)
Definition sign_mark (coefficient : Z) : string :=
  if coefficient >? 0 then " + " else " - ".

Definition coefficient_number (coefficient degree : Z) : string :=
  if bool_decide (Z.abs coefficient ≠ 1) || bool_decide (degree = 0)
  then pretty (Z.abs coefficient) else "".

Definition x_power (degree : Z) : string :=
  if degree >? 1 then "x^" +:+ pretty degree
  else if bool_decide (degree = 1) then "x" else "".

Definition __str__ (self : Polynomial) : string :=
  let polynomial_degree := len (__components self) - 1 in
  if bool_decide (py_count (__components self) 0 = len (__components self))
  then "0"
  else
    let string_form :=
      foldl (λ string_form dc,
               let coefficient := dc.2 in
               if bool_decide (coefficient = 0) then string_form
               else
                 let degree := polynomial_degree - Z.of_nat dc.1 in
                 let string_form := string_form +:+ sign_mark coefficient in
                 let string_form :=
                   string_form +:+ coefficient_number coefficient degree in
                 string_form +:+ x_power degree)
            "" (enumerate (reverse (__components self))) in
    if String.prefix " +" string_form then string_drop 3 string_form
    else string_drop 1 string_form.

Definition __eq__ (self other : Polynomial) : bool :=
  let min_length :=
    Z.to_nat (Z.min (len (__components self)) (len (components other))) in
  if bool_decide (take min_length (__components self)
                  ≠ take min_length (components other))
  then false
  else if len (__components self) >? len (components other)
  then bool_decide (py_count (drop min_length (__components self)) 0
                    = len (drop min_length (__components self)))
  else bool_decide (py_count (drop min_length (components other)) 0
                    = len (drop min_length (components other))).

Definition __add__ (self other : Polynomial) : option Polynomial :=
  let highest_common_degree :=
    Z.min (len (__components self)) (len (components other)) - 1 in
  components_summaries ←
    mapM (λ degree : nat,
            o ← components other !! degree;
            s ← __components self !! degree;
            Some (o + s))
         (range (highest_common_degree + 1));
  let components_summaries :=
    if len (components other) <? len (__components self)
    then components_summaries
           ++ drop (Z.to_nat (highest_common_degree + 1)) (__components self)
    else components_summaries
           ++ drop (Z.to_nat (highest_common_degree + 1)) (components other) in
  Some (__init__ (FromList components_summaries)).

Definition __pow__ (self : Polynomial) (power : Z) : option Polynomial :=
  result_components ←
    for_in (range power) (λ _ result_components,
      __multiply_components self result_components) [1];
  Some (__init__ (FromList result_components)).

(** Shorthand for the polynomial with the given components. *)
Abbreviation Poly l := (__init__ (FromList l)).

(** ** Specification-side definitions *)

(** A list padded with trailing zeros up to length [n]. *)
Definition pad_zeros (n : nat) (l : list Z) : list Z :=
  l ++ replicate (n - length l) 0.

(** The nonzero terms of a components list, as pairs of a degree and its
    coefficient, from the highest degree down. *)
Definition nonzero_terms (l : list Z) : list (nat * Z) :=
  filter (λ t, t.2 ≠ 0) (reverse (enumerate l)).

(** The numeral of a term: omitted when the coefficient is 1 or -1 and the
    degree is not 0, the absolute value otherwise. *)
Definition term_numeral (d : nat) (c : Z) : string :=
  if decide (Z.abs c = 1 ∧ d ≠ 0%nat) then "" else pretty (Z.abs c).

(** The variable part of a term. *)
Definition term_variable (d : nat) : string :=
  match d with
  | 0%nat => ""
  | 1%nat => "x"
  | _ => "x^" +:+ pretty d
  end.

(** A term with its leading separator. *)
Definition term_text (t : nat * Z) : string :=
  (if decide (0 < t.2) then " + " else " - ")
    +:+ term_numeral t.1 t.2 +:+ term_variable t.1.

(** All strings of a list, one after the other. *)
Definition join (l : list string) : string := foldr String.append "" l.

(** The rendering rule: the terms in order, without the leading [" + "] of a
    positive first term or the leading space of a negative one. *)
Definition rendering (l : list Z) : string :=
  match nonzero_terms l with
  | [] => "0"
  | t :: _ =>
      string_drop (if decide (0 < t.2) then 3 else 1)
                  (join (term_text <$> nonzero_terms l))
  end.

(** The sum of [f i] over the indices [i] of [l]. *)
Definition sum_over (l : list nat) (f : nat → Z) : Z :=
  foldr (λ i acc, f i + acc) 0 l.
Global Arguments sum_over : simpl never.

(** [u[i]] for a valid index [i]. *)
Definition coefficient_at (u : list Z) (i : nat) : Z := default 0 (u !! i).

(** Entry [n] of the discrete convolution of [u] and [v]: the sum of
    [u[i] * v[j]] over all valid [i], [j] with [i + j = n]. *)
Definition convolution_entry (u v : list Z) (n : nat) : Z :=
  sum_over (seq 0 (length u)) (λ i,
    sum_over (seq 0 (length v)) (λ j,
      if decide (i + j = n)%nat
      then coefficient_at u i * coefficient_at v j else 0)).

(** The discrete convolution of two coefficient sequences. *)
Definition convolution (u v : list Z) : list Z :=
  convolution_entry u v <$> range (len u + len v - 1).

(** Horner's scheme on an ascending coefficient list. *)
Definition horner (l : list Z) (x : Z) : Z :=
  foldr (λ c acc, c + x * acc) 0 l.

(** ** Facts about the built-ins *)

Section builtin_facts.
Context {A : Type}.
Implicit Types l : list A.

Lemma len_nil : len (@nil A) = 0.
Proof. reflexivity. Qed.

Lemma len_nonneg l : 0 ≤ len l.
Proof. unfold len. lia. Qed.

Lemma len_app l1 l2 : len (l1 ++ l2) = len l1 + len l2.
Proof. unfold len. rewrite length_app. lia. Qed.

Lemma length_py_repeat (x : A) n : length (py_repeat x n) = Z.to_nat n.
Proof. apply length_replicate. Qed.

Lemma lookup_enumerate l i :
  enumerate l !! i = (λ x, (i, x)) <$> l !! i.
Proof. unfold enumerate. apply list_lookup_imap. Qed.

Lemma py_setitem_Some l i x :
  (i < length l)%nat → py_setitem l i x = Some (<[i:=x]> l).
Proof.
  intros Hi. unfold py_setitem.
  destruct (lookup_lt_is_Some_2 l i Hi) as [y ->]. reflexivity.
Qed.

(** Hoare-style rule for a loop over a list: [I i s] holds of the state
    before the iteration on the [i]-th item. *)
Lemma for_in_invariant {State : Type} (I : nat → State → Prop)
    (items : list A) (body : A → State → option State) (s : State) :
  I 0%nat s →
  (∀ i x s, items !! i = Some x → I i s →
            ∃ s', body x s = Some s' ∧ I (S i) s') →
  ∃ s', for_in items body s = Some s' ∧ I (length items) s'.
Proof.
  revert I s. induction items as [|x items IH]; intros I s H0 Hstep.
  - exists s. split; [reflexivity | exact H0].
  - destruct (Hstep 0%nat x s eq_refl H0) as (s1 & Hb & H1).
    destruct (IH (λ i, I (S i)) s1 H1) as (s2 & Hl & H2).
    { intros i y t Hy Ht. apply (Hstep (S i) y t Hy Ht). }
    exists s2. split; [|exact H2].
    simpl. rewrite Hb. exact Hl.
Qed.
End builtin_facts.

(** Start a loop proof: apply [for_in_invariant] with invariant [I] to the
    loop in the goal and name the resulting fact [H]. *)
Ltac loop_invariant I H :=
  match goal with
  | |- context [for_in ?items ?body ?s] =>
      pose proof (for_in_invariant I items body s) as H; cbv beta in H
  end.

Lemma lookup_range n i x : range n !! i = Some x → x = i ∧ (Z.of_nat i < n).
Proof.
  unfold range. intros H. apply lookup_seq in H as [-> Hlt]. split; [done | lia].
Qed.

Lemma length_range n : length (range n) = Z.to_nat n.
Proof. apply length_seq. Qed.

Lemma py_count_all_iff (l : list Z) x :
  py_count l x = len l ↔ Forall (λ y, y = x) l.
Proof.
  unfold py_count, len. induction l as [|y l IH]; simpl.
  - split; [constructor | reflexivity].
  - rewrite filter_cons. pose proof (length_filter (λ y, y = x) l) as Hle.
    destruct (decide (y = x)) as [->|Hne]; simpl.
    + rewrite Forall_cons. split.
      * intros H. split; [reflexivity | apply IH; lia].
      * intros [_ H]. apply IH in H. lia.
    + split; [lia |]. intros H. apply Forall_cons in H as [? _]. done.
Qed.

Lemma Forall_zero_replicate (l : list Z) :
  Forall (λ y, y = 0) l ↔ l = replicate (length l) 0.
Proof.
  induction l as [|y l IH]; simpl; [done|].
  rewrite Forall_cons, IH. split.
  - intros [-> <-]. reflexivity.
  - intros [= -> Hl]. rewrite <- Hl. done.
Qed.

(** ** The documented examples of the source *)

Example str_doc_1 : __str__ (__init__ (FromInts 1 [-3; 0; 2])) = "2x^3 - 3x + 1".
Proof. vm_compute. reflexivity. Qed.
Example str_doc_2 : __str__ (__init__ (FromInts 1 [1; -1])) = "- x^2 + x + 1".
Proof. vm_compute. reflexivity. Qed.
Example str_doc_3 : __str__ (__init__ (FromKwargs {[ 2 := 0 ]})) = "0".
Proof. vm_compute. reflexivity. Qed.
Example pow_doc : __str__ <$> __pow__ (__init__ (FromInts (-1) [1])) 3
                  = Some "x^3 - 3x^2 + 3x - 1"%string.
Proof. vm_compute. reflexivity. Qed.
Example derivative_doc : __str__ <$> derivative (Poly [1; -3; 0; 2]) = Some "6x^2 - 3"%string.
Proof. vm_compute. reflexivity. Qed.
Example add_doc : __str__ <$> __add__ (Poly [1; -3; 0; 2]) (Poly [0; 2; 1])
                  = Some "2x^3 + x^2 - x + 1"%string.
Proof. vm_compute. reflexivity. Qed.
Example test_kwargs :
  __str__ (__init__ (FromKwargs (list_to_map
     [(7, 1); (4, 4); (8, 3); (9, 0); (0, 0); (5, -2); (3, -1); (1, 1)])))
  = "3x^8 + x^7 - 2x^5 + 4x^4 - x^3 + x".
Proof. vm_compute. reflexivity. Qed.

Example test_eq_kwargs :
  __eq__ (__init__ (FromKwargs (list_to_map [(0, 2); (1, 0); (3, 0); (2, 3)])))
         (__init__ (FromInts 2 [0; 3])) = true.
Proof. vm_compute. reflexivity. Qed.
Example test_eq_zero :
  __eq__ (__init__ (FromKwargs {[ 2 := 0 ]})) (__init__ (FromKwargs {[ 0 := 0 ]}))
  = true.
Proof. vm_compute. reflexivity. Qed.
Example test_add :
  __str__ <$> __add__ (Poly [-1; 1; 1; 0]) (__init__ (FromInts 1 [-1; 1]))
  = Some "2x^2"%string.
Proof. vm_compute. reflexivity. Qed.
Example test_pow_4 :
  __str__ <$> __pow__ (__init__ (FromKwargs (list_to_map [(0, -1); (1, 1)]))) 4
  = Some "x^4 - 4x^3 + 6x^2 - 4x + 1"%string.
Proof. vm_compute. reflexivity. Qed.
Example test_derivative_constant :
  __str__ <$> derivative (__init__ (FromKwargs {[ 0 := 2 ]})) = Some "0"%string.
Proof. vm_compute. reflexivity. Qed.
Example test_derivative_twice :
  __str__ <$> (derivative (__init__ (FromKwargs (list_to_map
                 [(3, 2); (1, 3); (0, 2)]))) ≫= derivative)
  = Some "12x"%string.
Proof. vm_compute. reflexivity. Qed.
Example test_at_value :
  at_value (__init__ (FromInts (-2) [3; 4; -5])) 0 None = -2
  ∧ at_value (__init__ (FromKwargs (list_to_map [(2, 3); (0, -1); (1, -2)])))
             3 (Some 5) = 44.
Proof. vm_compute. split; reflexivity. Qed.
Example test_no_arguments : components (__init__ (FromKwargs ∅)) = [0].
Proof. vm_compute. reflexivity. Qed.

(** ** Evaluation *)

(** [__count_value] is Horner-compatible: the value of [c + x * q(x)]. *)
Lemma count_value_shift (l : list Z) (x acc : Z) (k : nat) :
  foldl (λ accumulator dc, accumulator + dc.2 * x ^ Z.of_nat dc.1)
        acc (imap (λ i, pair (k + i)%nat) l)
  = acc + x ^ Z.of_nat k
          * foldl (λ accumulator dc, accumulator + dc.2 * x ^ Z.of_nat dc.1)
                  0 (imap pair l).
Proof.
  revert acc k. induction l as [|c l IH]; intros acc k; simpl.
  - lia.
  - rewrite (imap_ext ((λ i, pair (k + i)%nat) ∘ S) (λ i, pair (S k + i)%nat))
      by (intros; simpl; f_equal; lia).
    rewrite IH.
    rewrite (imap_ext (pair ∘ S) (λ i, pair (1 + i)%nat)) by done.
    rewrite (IH _ 1%nat).
    rewrite Nat.add_0_r. change (Z.of_nat 0) with 0.
    rewrite Nat2Z.inj_succ, Z.pow_succ_r by lia.
    change (Z.of_nat 1) with 1. rewrite Z.pow_0_r, Z.pow_1_r. lia.
Qed.

Lemma count_value_cons (c : Z) (l : list Z) (x : Z) :
  __count_value (Poly (c :: l)) x = c + x * __count_value (Poly l) x.
Proof.
  unfold __count_value, enumerate. simpl.
  rewrite (imap_ext (pair ∘ S) (λ i, pair (1 + i)%nat)) by done.
  rewrite count_value_shift. change (Z.of_nat 1) with 1.
  rewrite Z.pow_0_r, Z.pow_1_r. lia.
Qed.

(** C1: the two-argument form of [at_value] returns the value at the second
    argument minus the value at the first; on [1,-3,0,2] the value at 2 is 11
    and the two-argument value at (2, 3) is 35. *)
Theorem at_value_second_minus_first :
  (∀ (p : Polynomial) (x1 x2 : Z),
     at_value p x1 (Some x2) = at_value p x2 None - at_value p x1 None)
  ∧ at_value (Poly [1; -3; 0; 2]) 2 None = 11
  ∧ at_value (Poly [1; -3; 0; 2]) 2 (Some 3) = 35.
Proof.
  split; [|split].
  - intros p x1 x2. reflexivity.
  - vm_compute. reflexivity.
  - vm_compute. reflexivity.
Qed.

(** ** Rendering of the zero polynomial *)

(** C7: a polynomial all of whose coefficients are zero, of any length,
    renders as "0". *)
Theorem str_all_zero (p : Polynomial) :
  Forall (λ c, c = 0) (components p) → __str__ p = "0".
Proof.
  intros Hz. unfold __str__.
  rewrite bool_decide_eq_true_2; [reflexivity|].
  apply py_count_all_iff. exact Hz.
Qed.

Lemma str_all_zero_witness :
  Forall (λ c, c = 0) (components (Poly [0; 0; 0]))
  ∧ __str__ (Poly [0; 0; 0]) = "0".
Proof.
  assert (Forall (λ c, c = 0) (components (Poly [0; 0; 0]))) as H
    by (repeat constructor).
  split; [exact H | exact (str_all_zero (Poly [0; 0; 0]) H)].
Defined.

(** ** Equality *)

Lemma longer_eq_padded (a b : list Z) :
  (length b ≤ length a)%nat →
  (take (length b) a = b ∧ Forall (λ y, y = 0) (drop (length b) a))
  ↔ a = b ++ replicate (length a - length b) 0.
Proof.
  intros Hle. split.
  - intros [Ht Hz]. apply Forall_zero_replicate in Hz.
    rewrite length_drop in Hz.
    rewrite <- (take_drop (length b) a) at 1. rewrite Ht, Hz. reflexivity.
  - remember (length a - length b)%nat as k eqn:Hk. clear Hk. intros ->.
    rewrite take_app_length, drop_app_length. split; [reflexivity|].
    apply Forall_replicate. reflexivity.
Qed.

Lemma eq_lists_iff (a b : list Z) :
  __eq__ (Poly a) (Poly b) = true
  ↔ pad_zeros (length a `max` length b) a = pad_zeros (length a `max` length b) b.
Proof.
  unfold __eq__, components, pad_zeros, len. simpl.
  destruct (Z.gtb_spec (Z.of_nat (length a)) (Z.of_nat (length b))) as [Hgt|Hle].
  - replace (Z.to_nat (Z.of_nat (length a) `min` Z.of_nat (length b)))
      with (length b) by lia.
    replace (length a `max` length b)%nat with (length a) by lia.
    rewrite Nat.sub_diag, app_nil_r, (take_ge b) by lia.
    rewrite <- longer_eq_padded by lia.
    case_bool_decide as Hne.
    + split; [done|]. intros [? _]. done.
    + rewrite bool_decide_eq_true. fold (len (drop (length b) a)).
      rewrite py_count_all_iff. tauto.
  - replace (Z.to_nat (Z.of_nat (length a) `min` Z.of_nat (length b)))
      with (length a) by lia.
    replace (length a `max` length b)%nat with (length b) by lia.
    rewrite Nat.sub_diag, app_nil_r, (take_ge a) by lia.
    rewrite (symmetry_iff (=) (a ++ _)).
    rewrite <- longer_eq_padded by lia.
    case_bool_decide as Hne.
    + split; [done|]. intros [? _]. done.
    + rewrite bool_decide_eq_true. fold (len (drop (length a) b)).
      rewrite py_count_all_iff. split; [intros; split; done | tauto].
Qed.

(** C3: [p == q] holds exactly when the two components lists, padded with
    trailing zeros to the longer length, are the same; [1,0,1] equals
    [1,0,1,0] and differs from [1,0,1,1]. *)
Theorem eq_iff_padded_equal :
  (∀ p q : Polynomial,
     let n := (length (components p) `max` length (components q))%nat in
     __eq__ p q = true
     ↔ pad_zeros n (components p) = pad_zeros n (components q))
  ∧ __eq__ (Poly [1; 0; 1]) (Poly [1; 0; 1; 0]) = true
  ∧ __eq__ (Poly [1; 0; 1]) (Poly [1; 0; 1; 1]) = false.
Proof.
  split; [|split].
  - intros [a] [b]. apply eq_lists_iff.
  - vm_compute. reflexivity.
  - vm_compute. reflexivity.
Qed.

(** ** Derivative of a constant *)

(** C10: the derivative of a polynomial with exactly one component has an
    empty components list, which still compares equal to [Polynomial([0])]
    and renders as "0". *)
Theorem derivative_of_constant_is_empty (p : Polynomial) :
  length (components p) = 1%nat →
  ∃ r, derivative p = Some r
       ∧ components r = []
       ∧ __eq__ r (Poly [0]) = true
       ∧ __str__ r = "0".
Proof.
  destruct p as [[|c [|c' l]]]; unfold components; simpl; try discriminate.
  intros _. exists (Poly []). repeat split.
Qed.

Lemma derivative_of_constant_is_empty_witness :
  ∃ r, derivative (Poly [7]) = Some r
       ∧ components r = []
       ∧ __eq__ r (Poly [0]) = true
       ∧ __str__ r = "0".
Proof. apply (derivative_of_constant_is_empty (Poly [7])). reflexivity. Defined.

(** ** Power with a negative exponent *)

(** C9 (as the code behaves): a negative exponent raises nothing; the loop
    body never runs and the result is the polynomial with components [1]. *)
Theorem pow_negative_exponent (p : Polynomial) (n : Z) :
  n < 0 → __pow__ p n = Some (Poly [1]).
Proof.
  intros Hn. unfold __pow__, range.
  replace (Z.to_nat n) with 0%nat by lia. reflexivity.
Qed.

Lemma pow_negative_exponent_witness :
  -1 < 0 ∧ __pow__ (Poly [2; 3]) (-1) = Some (Poly [1]).
Proof. split; [lia | apply pow_negative_exponent; lia]. Defined.

(** C9, refuted as stated: [Polynomial(2, 3) ** -1] signals no error. *)
Lemma pow_negative_exponent_no_error :
  __pow__ (__init__ (FromInts 2 [3])) (-1) ≠ None
  ∧ __pow__ (__init__ (FromInts 2 [3])) (-1) = Some (Poly [1]).
Proof. split; [discriminate | reflexivity]. Qed.

(** ** Addition *)

Lemma add_common_sums (a b : list Z) :
  mapM (λ degree : nat, o ← b !! degree; s ← a !! degree; Some (o + s))
       (range (Z.min (len a) (len b) - 1 + 1))
  = Some (zip_with (λ s o, o + s) a b).
Proof.
  apply mapM_Some_2, Forall2_same_length_lookup_2.
  - rewrite length_range, length_zip_with. unfold len. lia.
  - intros i d z Hd Hz. apply lookup_range in Hd as [-> _].
    apply lookup_zip_with_Some in Hz as (x & y & -> & -> & ->). reflexivity.
Qed.

Lemma add_lists (a b : list Z) :
  ∃ r, __add__ (Poly a) (Poly b) = Some (Poly r)
       ∧ len r = Z.max (len a) (len b)
       ∧ (∀ i x y, a !! i = Some x → b !! i = Some y → r !! i = Some (y + x))
       ∧ (∀ i, (length b ≤ i)%nat → r !! i = a !! i)
       ∧ (∀ i, (length a ≤ i)%nat → r !! i = b !! i).
Proof.
  unfold __add__, components. simpl. rewrite add_common_sums. simpl.
  replace (Z.to_nat (Z.min (len a) (len b) - 1 + 1))
    with (length a `min` length b)%nat by (unfold len; lia).
  pose proof (length_zip_with (λ s o : Z, o + s) a b) as Hzl.
  eexists. split; [reflexivity|].
  destruct (Z.ltb_spec (len b) (len a)) as [Hlt|Hge]; unfold len in *.
  - repeat split.
    + rewrite length_app, length_drop. lia.
    + intros i x y Hx Hy. rewrite lookup_app_l.
      * rewrite lookup_zip_with, Hx, Hy. reflexivity.
      * apply lookup_lt_Some in Hx, Hy. lia.
    + intros i Hi. rewrite lookup_app_r by lia. rewrite lookup_drop.
      f_equal. lia.
    + intros i Hi. rewrite !lookup_ge_None_2; [reflexivity | lia |].
      rewrite length_app, length_drop. lia.
  - repeat split.
    + rewrite length_app, length_drop. lia.
    + intros i x y Hx Hy. rewrite lookup_app_l.
      * rewrite lookup_zip_with, Hx, Hy. reflexivity.
      * apply lookup_lt_Some in Hx, Hy. lia.
    + intros i Hi. rewrite !lookup_ge_None_2; [reflexivity | lia |].
      rewrite length_app, length_drop. lia.
    + intros i Hi. rewrite lookup_app_r by lia. rewrite lookup_drop.
      f_equal. lia.
Qed.

(** C4: the components of [a + b] have length [max(len(a), len(b))]; below
    [min(len(a), len(b))] they are the elementwise sums, and from there on
    they are the coefficients of the longer operand, unchanged (nothing is
    trimmed). *)
Theorem add_components (a b : Polynomial) :
  ∃ r, __add__ a b = Some r
       ∧ len (components r) = Z.max (len (components a)) (len (components b))
       ∧ (∀ i x y, components a !! i = Some x → components b !! i = Some y →
                   components r !! i = Some (y + x))
       ∧ (∀ i, (length (components b) ≤ i)%nat →
               components r !! i = components a !! i)
       ∧ (∀ i, (length (components a) ≤ i)%nat →
               components r !! i = components b !! i).
Proof.
  destruct a as [a], b as [b].
  destruct (add_lists a b) as (r & Hr & H). exists (Poly r). split; done.
Qed.

Lemma add_components_witness :
  ∃ r, __add__ (Poly [1; -3; 0; 2]) (Poly [0; 2; 1]) = Some r
       ∧ components r !! 1%nat = Some (2 + -3)
       ∧ components r !! 3%nat = Some 2.
Proof.
  destruct (add_components (Poly [1; -3; 0; 2]) (Poly [0; 2; 1]))
    as (r & Hr & _ & Hsum & Ha & _).
  exists r. split; [exact Hr|]. split.
  - apply (Hsum 1%nat (-3) 2); reflexivity.
  - rewrite (Ha 3%nat); [reflexivity | simpl; lia].
Defined.

(** ** Derivative *)

Lemma derivative_lists (l : list Z) :
  ∃ r, derivative (Poly l) = Some (Poly r)
       ∧ length r = (length l - 1)%nat
       ∧ ∀ d c, l !! S d = Some c → r !! d = Some (c * Z.of_nat (S d)).
Proof.
  unfold derivative. simpl.
  loop_invariant
    (λ i (r : list Z),
       length r = (length l - 1)%nat
       ∧ ∀ d c, l !! S d = Some c →
                r !! d = Some (if decide (S d < i)%nat
                               then c * Z.of_nat (S d) else 0)) Hinv.
  destruct Hinv as (r & -> & Hlen & Hr).
  - split.
    + rewrite length_py_repeat. unfold len. lia.
    + intros d c Hc. apply lookup_lt_Some in Hc.
      unfold py_repeat. rewrite lookup_replicate_2 by (unfold len; lia).
      reflexivity.
  - intros j [i c] r. rewrite lookup_enumerate.
    intros Hx [Hlen Hr]. apply fmap_Some in Hx as (c' & Hc & [= <- <-]).
    simpl. case_bool_decide as Hi.
    + subst i. exists r. repeat split; [done|].
      intros d x Hd. rewrite (Hr d x Hd). repeat case_decide; done || lia.
    + apply lookup_lt_Some in Hc as Hlt.
      rewrite py_setitem_Some by lia. eexists. repeat split.
      * rewrite length_insert. done.
      * intros d x Hd. destruct (decide (d = i - 1)%nat) as [->|Hne].
        -- rewrite list_lookup_insert_eq by lia.
           replace (S (i - 1)) with i in * by lia.
           rewrite Hc in Hd. injection Hd as <-.
           rewrite decide_True by lia. reflexivity.
        -- rewrite list_lookup_insert_ne by lia. rewrite (Hr d x Hd).
           repeat case_decide; done || lia.
  - exists r. repeat split; [done|].
    intros d c Hd. rewrite (Hr d c Hd). apply lookup_lt_Some in Hd.
    unfold enumerate. rewrite length_imap, decide_True by lia. reflexivity.
Qed.

(** C6: for a components list of length at least 2 the derivative has one
    component fewer and its coefficient at degree [d-1] is the input's
    coefficient at degree [d] times [d], for every [d >= 1]; the derivative
    of a one-component polynomial equals [Polynomial([0])] under [==]. *)
Theorem derivative_components :
  (∀ p : Polynomial, (2 ≤ length (components p))%nat →
     ∃ r, derivative p = Some r
          ∧ (length (components r) + 1 = length (components p))%nat
          ∧ ∀ d c, (1 ≤ d)%nat → components p !! d = Some c →
                   components r !! (d - 1)%nat = Some (c * Z.of_nat d))
  ∧ (∀ p : Polynomial, length (components p) = 1%nat →
       ∃ r, derivative p = Some r ∧ __eq__ r (Poly [0]) = true).
Proof.
  split.
  - intros [l]. unfold components. simpl. intros Hl.
    destruct (derivative_lists l) as (r & Hd & Hlen & Hr).
    exists (Poly r). repeat split; [done | simpl; lia |].
    intros d c Hd1 Hc. destruct d as [|d]; [lia|].
    simpl. rewrite Nat.sub_0_r. apply Hr, Hc.
  - intros [l]. unfold components. simpl. intros Hl.
    destruct (derivative_lists l) as (r & Hd & Hlen & _).
    exists (Poly r). split; [done|].
    destruct r; [reflexivity | simpl in Hlen; lia].
Qed.

Lemma derivative_components_witness :
  (∃ r, derivative (Poly [1; -3; 0; 2]) = Some r
        ∧ components r !! 2%nat = Some (2 * 3))
  ∧ (∃ r, derivative (Poly [4]) = Some r ∧ __eq__ r (Poly [0]) = true).
Proof.
  destruct derivative_components as [Hlong Hconst]. split.
  - destruct (Hlong (Poly [1; -3; 0; 2])) as (r & Hr & _ & Hc);
      [simpl; lia|].
    exists r. split; [exact Hr|].
    apply (Hc 3%nat 2); [lia | reflexivity].
  - apply (Hconst (Poly [4])). reflexivity.
Defined.

(** ** Multiplication and power *)

Lemma sum_over_snoc (n : nat) (f : nat → Z) :
  sum_over (seq 0 (S n)) f = sum_over (seq 0 n) f + f n.
Proof.
  unfold sum_over. rewrite seq_S, foldr_app. simpl.
  generalize (seq 0 n). intros l. induction l as [|i l IH]; simpl; lia.
Qed.

Lemma coefficient_at_Some (u : list Z) (i : nat) (c : Z) :
  u !! i = Some c → coefficient_at u i = c.
Proof. unfold coefficient_at. intros ->. reflexivity. Qed.

(** The inner loop of [__multiply_components]: one row of products is added
    into the result, starting at index [o]. *)
Lemma multiply_inner_loop (s : list Z) (o : nat) (oc : Z) (r : list Z) :
  (o + length s ≤ length r)%nat →
  ∃ r', for_in (range (len s)) (λ inner_degree result_components,
          inner_coefficient ← s !! inner_degree;
          old ← result_components !! (o + inner_degree)%nat;
          py_setitem result_components (o + inner_degree)%nat
            (old + oc * inner_coefficient)) r = Some r'
        ∧ length r' = length r
        ∧ ∀ k x, r !! k = Some x →
            r' !! k = Some (x + sum_over (seq 0 (length s)) (λ j,
                                  if decide (o + j = k)%nat
                                  then oc * coefficient_at s j else 0)).
Proof.
  intros Hfit.
  loop_invariant
    (λ j (r' : list Z),
       length r' = length r
       ∧ ∀ k x, r !! k = Some x →
           r' !! k = Some (x + sum_over (seq 0 j) (λ j',
                                 if decide (o + j' = k)%nat
                                 then oc * coefficient_at s j' else 0))) Hinv.
  destruct Hinv as (r' & Hloop & Hlen & Hr').
  - split; [reflexivity|]. intros k x Hx. rewrite Hx. f_equal.
    unfold sum_over. simpl. lia.
  - intros j j0 r' Hj [Hlen Hr']. apply lookup_range in Hj as [-> Hj].
    unfold len in Hj.
    destruct (lookup_lt_is_Some_2 s j) as [c Hc]; [lia|].
    destruct (lookup_lt_is_Some_2 r (o + j)%nat) as [x0 Hx0]; [lia|].
    rewrite Hc. cbn [mbind option_bind]. rewrite (Hr' _ _ Hx0).
    cbn [mbind option_bind].
    rewrite py_setitem_Some by lia. eexists. repeat split.
    + rewrite length_insert. exact Hlen.
    + intros k x Hx. rewrite sum_over_snoc.
      rewrite (coefficient_at_Some _ _ _ Hc).
      destruct (decide (o + j = k)%nat) as [<-|Hne].
      * rewrite list_lookup_insert_eq by lia.
        rewrite Hx0 in Hx. injection Hx as <-. f_equal. lia.
      * rewrite list_lookup_insert_ne by lia.
        rewrite (Hr' _ _ Hx). f_equal. lia.
  - exists r'. rewrite length_range in Hr'. unfold len in Hr'.
    rewrite Nat2Z.id in Hr'. done.
Qed.

(** The loops of [__multiply_components] never leave the result list and
    compute the discrete convolution of the base with the polynomial. *)
Lemma multiply_components_convolution (p : Polynomial) (b : list Z) :
  __multiply_components p b = Some (convolution b (components p)).
Proof.
  destruct p as [s]. unfold __multiply_components, components. simpl.
  set (L := Z.to_nat (len s + len b - 1)).
  loop_invariant
    (λ o (r : list Z),
       length r = L
       ∧ ∀ k, (k < L)%nat →
           r !! k = Some (sum_over (seq 0 o) (λ i,
                      sum_over (seq 0 (length s)) (λ j,
                        if decide (i + j = k)%nat
                        then coefficient_at b i * coefficient_at s j
                        else 0)))) Hinv.
  destruct Hinv as (r & -> & Hlen & Hr).
  - split; [apply length_py_repeat|].
    intros k Hk. unfold py_repeat. fold L. rewrite lookup_replicate_2 by done.
    reflexivity.
  - intros o o0 r Ho [Hlen Hr]. apply lookup_range in Ho as [-> Ho].
    unfold len in Ho.
    destruct (lookup_lt_is_Some_2 b o) as [oc Hoc]; [lia|].
    rewrite Hoc. cbn [mbind option_bind].
    destruct (multiply_inner_loop s o oc r) as (r' & -> & Hlen' & Hr').
    { rewrite Hlen. unfold L, len. lia. }
    exists r'. repeat split; [congruence|].
    intros k Hk. rewrite sum_over_snoc.
    rewrite (Hr' k _ (Hr k Hk)). do 2 f_equal.
    rewrite (coefficient_at_Some _ _ _ Hoc). reflexivity.
  - f_equal. apply list_eq. intros k.
    unfold convolution. rewrite list_lookup_fmap.
    rewrite length_range in Hr. unfold len in Hr. rewrite Nat2Z.id in Hr.
    unfold range. replace (Z.to_nat (len b + len s - 1)) with L
      by (unfold L; lia).
    destruct (decide (k < L)%nat) as [Hk|Hk].
    + rewrite (Hr k Hk), lookup_seq_lt by done. reflexivity.
    + rewrite lookup_ge_None_2 by lia.
      rewrite lookup_ge_None_2 by (rewrite length_seq; lia). reflexivity.
Qed.

Lemma pow_loop (p : Polynomial) (n a : nat) (u : list Z) :
  for_in (seq a n) (λ _ result_components,
    __multiply_components p result_components) u
  = Some (Nat.iter n (λ u, convolution u (components p)) u).
Proof.
  revert a u. induction n as [|n IH]; intros a u; [reflexivity|].
  cbn [seq for_in]. rewrite multiply_components_convolution.
  cbn [mbind option_bind]. rewrite IH, Nat.iter_succ_r. reflexivity.
Qed.

Lemma length_convolution (u v : list Z) :
  len (convolution u v) = Z.max 0 (len u + len v - 1).
Proof.
  unfold convolution, len. rewrite length_fmap, length_range. lia.
Qed.

Lemma lookup_convolution (u v : list Z) (k : nat) :
  (k < length (convolution u v))%nat →
  convolution u v !! k = Some (convolution_entry u v k).
Proof.
  unfold convolution. rewrite length_fmap, length_range. intros Hk.
  rewrite list_lookup_fmap. unfold range. rewrite lookup_seq_lt by done.
  reflexivity.
Qed.

(** C5 (as the code behaves): [p ** n] for a non-negative [n] is the result
    of starting from [1] and convolving with the components of [p] exactly
    [n] times, and [p ** 0] has components [1].  One multiplication step
    never fails; on sequences of lengths [m] and [k] it returns a sequence of
    length [max(0, m + k - 1)] (that is [m + k - 1] unless both are empty)
    whose entry [n] is the sum of [u[i] * v[j]] over all valid [i], [j] with
    [i + j = n]. *)
Theorem pow_iterated_convolution (p : Polynomial) (n : nat) :
  __pow__ p (Z.of_nat n)
  = Some (Poly (Nat.iter n (λ u, convolution u (components p)) [1]))
  ∧ __pow__ p 0 = Some (Poly [1])
  ∧ ∀ u : list Z,
      ∃ r, __multiply_components p u = Some r
           ∧ len r = Z.max 0 (len u + len (components p) - 1)
           ∧ ∀ k, (k < length r)%nat →
                  r !! k = Some (convolution_entry u (components p) k).
Proof.
  repeat split.
  - unfold __pow__, range. rewrite Nat2Z.id, pow_loop. reflexivity.
  - intros u. exists (convolution u (components p)).
    split; [apply multiply_components_convolution|].
    split; [apply length_convolution | apply lookup_convolution].
Qed.

Lemma pow_iterated_convolution_witness :
  __pow__ (Poly [-1; 1]) 3 = Some (Poly [-1; 3; -3; 1])
  ∧ ∃ r, __multiply_components (Poly [-1; 1]) [1; -2; 1] = Some r
         ∧ r !! 1%nat = Some (convolution_entry [1; -2; 1] [-1; 1] 1).
Proof.
  destruct (pow_iterated_convolution (Poly [-1; 1]) 3) as (Hpow & _ & Hmul).
  split; [exact Hpow|].
  destruct (Hmul [1; -2; 1]) as (r & Hr & Hlen & Hk).
  exists r. split; [exact Hr|]. apply Hk.
  unfold len, components in Hlen. simpl in Hlen. lia.
Defined.

(** C5, refuted as stated: in [Polynomial([]) ** 2] the second
    multiplication convolves two empty sequences, and its result has length
    0, not [0 + 0 - 1]. *)
Lemma convolution_length_of_empty :
  __pow__ (Poly []) 2 = Some (Poly [])
  ∧ ∃ r, __multiply_components (Poly []) [] = Some r
         ∧ len r ≠ len (components (Poly [])) + len (@nil Z) - 1.
Proof.
  split; [reflexivity|]. exists []. split; [reflexivity|].
  vm_compute. discriminate.
Qed.

(** ** Length of the components list *)

Lemma find_highest_degree_nonneg (kwargs : gmap Z Z) :
  0 ≤ find_highest_degree kwargs.
Proof.
  unfold find_highest_degree.
  cut (∀ (l : list (Z * Z)) h, 0 ≤ h →
         0 ≤ foldl (λ highest_degree kv,
                      if kv.1 >? highest_degree then kv.1 else highest_degree)
                   h l).
  { intros H. apply H. lia. }
  induction l as [|kv l IH]; intros h Hh; simpl; [done|].
  apply IH. destruct (Z.gtb_spec kv.1 h); lia.
Qed.

Lemma init_length (a : init_args) :
  match a with
  | FromList l => len (components (__init__ a)) = len l
  | FromInts _ _ | FromKwargs _ => 1 ≤ len (components (__init__ a))
  end.
Proof.
  destruct a as [l|c cs|kwargs]; unfold components, len; simpl.
  - reflexivity.
  - lia.
  - destruct (0 <? size kwargs)%nat; simpl; [|lia].
    rewrite length_fmap, length_range.
    pose proof (find_highest_degree_nonneg kwargs). lia.
Qed.

Lemma length_iter_convolution (s : list Z) (n : nat) :
  1 ≤ len s → 1 ≤ len (Nat.iter n (λ u, convolution u s) [1]).
Proof.
  intros Hs. induction n as [|n IH]; simpl.
  - unfold len. simpl. lia.
  - rewrite length_convolution. lia.
Qed.

(** C8 (as the code behaves): construction from variadic coefficients, from
    a sparse mapping or from no arguments gives at least one component, and
    construction from a dense list keeps the list's length; the derivative
    of a polynomial with [n] components has [max(0, n - 1)] components (one
    fewer than a non-empty input, none for an empty one); a sum has at least
    one component when one of its operands has; a power has at least one
    component when its base has. *)
Theorem components_length :
  (∀ a : init_args,
     match a with
     | FromList l => len (components (__init__ a)) = len l
     | FromInts _ _ | FromKwargs _ => 1 ≤ len (components (__init__ a))
     end)
  ∧ (∀ p : Polynomial,
       ∃ r, derivative p = Some r
            ∧ len (components r) = Z.max 0 (len (components p) - 1))
  ∧ (∀ a b : Polynomial,
       ∃ r, __add__ a b = Some r
            ∧ (1 ≤ len (components a) ∨ 1 ≤ len (components b) →
               1 ≤ len (components r)))
  ∧ (∀ (p : Polynomial) (n : Z),
       ∃ r, __pow__ p n = Some r
            ∧ (1 ≤ len (components p) → 1 ≤ len (components r))).
Proof.
  split; [exact init_length|]. split; [|split].
  - intros [l]. destruct (derivative_lists l) as (r & Hd & Hlen & _).
    exists (Poly r). split; [exact Hd|].
    unfold components, len. simpl. lia.
  - intros [a] [b]. destruct (add_lists a b) as (r & Hr & Hlen & _).
    exists (Poly r). split; [exact Hr|]. unfold components. simpl. lia.
  - intros p n. eexists. split.
    + unfold __pow__, range. rewrite pow_loop. reflexivity.
    + intros Hp. apply length_iter_convolution, Hp.
Qed.

Lemma components_length_witness :
  (∃ r, __add__ (Poly []) (Poly [3]) = Some r ∧ 1 ≤ len (components r))
  ∧ (∃ r, __pow__ (Poly [-1; 1]) 2 = Some r ∧ 1 ≤ len (components r)).
Proof.
  destruct components_length as (_ & _ & Hadd & Hpow). split.
  - destruct (Hadd (Poly []) (Poly [3])) as (r & Hr & Hlen).
    exists r. split; [exact Hr|]. apply Hlen. right. vm_compute. discriminate.
  - destruct (Hpow (Poly [-1; 1]) 2) as (r & Hr & Hlen).
    exists r. split; [exact Hr|]. apply Hlen. vm_compute. discriminate.
Defined.

(** C8, refuted as stated: [Polynomial([])] has no component, and neither
    has the derivative of [Polynomial(5)]. *)
Lemma components_can_be_empty :
  len (components (__init__ (FromList []))) = 0
  ∧ 1 ≤ len (components (__init__ (FromInts 5 [])))
  ∧ ∃ r, derivative (__init__ (FromInts 5 [])) = Some r
         ∧ len (components r) = 0.
Proof.
  split; [reflexivity|]. split; [vm_compute; discriminate|].
  exists (Poly []). split; reflexivity.
Qed.

(** ** Rendering *)

Lemma string_app_assoc (s1 s2 s3 : string) :
  (s1 +:+ s2) +:+ s3 = s1 +:+ (s2 +:+ s3).
Proof.
  induction s1 as [|a s1 IH]; [reflexivity|].
  change (String a ((s1 +:+ s2) +:+ s3) = String a (s1 +:+ s2 +:+ s3)).
  f_equal. exact IH.
Qed.

Lemma string_app_nil_r (s : string) : s +:+ "" = s.
Proof.
  induction s as [|a s IH]; [reflexivity|].
  change (String a (s +:+ "") = String a s). f_equal. exact IH.
Qed.

Lemma pretty_N_go_length (x : N) (s : string) :
  (String.length s ≤ String.length (pretty_N_go x s))%nat.
Proof.
  revert s. induction (N.lt_wf_0 x) as [x _ IH]; intros s.
  destruct (decide (x = 0)%N) as [->|Hx]; [by rewrite pretty_N_go_0|].
  rewrite pretty_N_go_step by lia.
  etrans; [|apply IH, N.div_lt; lia]. simpl. lia.
Qed.

Lemma pretty_abs_nonempty (c : Z) : pretty (Z.abs c) ≠ "".
Proof.
  assert (∀ p : positive, pretty (Z.pos p) ≠ "") as Hpos.
  { intros p. unfold pretty, pretty_Z, pretty, pretty_positive, pretty, pretty_N.
    rewrite decide_False by done. rewrite pretty_N_go_step by lia.
    intros Heq.
    pose proof (pretty_N_go_length (N.pos p `div` 10)
                  (String (pretty_N_char (N.pos p `mod` 10)) "")) as Hlen.
    rewrite Heq in Hlen. simpl in Hlen. lia. }
  destruct c as [|p|p]; simpl; [discriminate | apply Hpos..].
Qed.

Lemma pretty_Z_of_nat (d : nat) : pretty (Z.of_nat d) = pretty d.
Proof. destruct d; reflexivity. Qed.

Lemma sign_mark_text (c : Z) :
  sign_mark c = if decide (0 < c) then " + " else " - ".
Proof.
  unfold sign_mark. destruct (Z.gtb_spec c 0); case_decide; done || lia.
Qed.

Lemma coefficient_number_text (c : Z) (d : nat) :
  coefficient_number c (Z.of_nat d) = term_numeral d c.
Proof.
  unfold coefficient_number, term_numeral.
  repeat (case_bool_decide || case_decide); simpl; done || lia.
Qed.

Lemma x_power_text (d : nat) : x_power (Z.of_nat d) = term_variable d.
Proof.
  unfold x_power, term_variable.
  destruct (Z.gtb_spec (Z.of_nat d) 1) as [Hd|Hd].
  - rewrite pretty_Z_of_nat. destruct d as [|[|d]]; done || lia.
  - case_bool_decide; destruct d as [|[|d]]; done || lia.
Qed.

Lemma elem_of_enumerate {A : Type} (l : list A) (d : nat) (c : A) :
  (d, c) ∈ enumerate l ↔ l !! d = Some c.
Proof.
  rewrite list_elem_of_lookup. setoid_rewrite lookup_enumerate. split.
  - intros (i & Hi). apply fmap_Some in Hi as (x & Hx & [= -> ->]). exact Hx.
  - intros Hc. exists d. rewrite Hc. reflexivity.
Qed.

Lemma enumerate_reverse {A : Type} (l : list A) :
  enumerate (reverse l)
  = (λ t, ((length l - 1 - t.1)%nat, t.2)) <$> reverse (enumerate l).
Proof.
  apply list_eq. intros i.
  rewrite lookup_enumerate, list_lookup_fmap.
  destruct (decide (i < length l)%nat) as [Hi|Hi].
  - rewrite !reverse_lookup by (unfold enumerate; rewrite ?length_imap; lia).
    rewrite lookup_enumerate. unfold enumerate. rewrite length_imap.
    destruct (l !! (length l - S i)%nat); simpl; [|reflexivity].
    do 2 f_equal. lia.
  - rewrite !lookup_ge_None_2; [reflexivity|..];
      unfold enumerate; rewrite ?length_reverse, ?length_imap; lia.
Qed.

Lemma foldl_ext_in {A B : Type} (f g : A → B → A) (l : list B) (a : A) :
  (∀ a x, x ∈ l → f a x = g a x) → foldl f a l = foldl g a l.
Proof.
  revert a. induction l as [|x l IH]; intros a Hfg; simpl; [reflexivity|].
  rewrite Hfg by left. apply IH. intros b y Hy. apply Hfg. by right.
Qed.

(** The loop of [__str__] appends the texts of the nonzero terms. *)
Lemma str_loop_terms (ts : list (nat * Z)) (string_form : string) :
  foldl (λ string_form t,
           if bool_decide (t.2 = 0) then string_form
           else ((string_form +:+ sign_mark t.2)
                   +:+ coefficient_number t.2 (Z.of_nat t.1))
                  +:+ x_power (Z.of_nat t.1))
        string_form ts
  = string_form +:+ join (term_text <$> filter (λ t, t.2 ≠ 0) ts).
Proof.
  revert string_form. induction ts as [|[d c] ts IH]; intros sf; simpl.
  - symmetry. apply string_app_nil_r.
  - rewrite filter_cons. simpl. rewrite IH. case_bool_decide as Hc.
    + rewrite decide_False by tauto. reflexivity.
    + rewrite decide_True by done. simpl. unfold term_text. simpl.
      rewrite sign_mark_text, coefficient_number_text, x_power_text.
      rewrite !string_app_assoc. reflexivity.
Qed.

Lemma str_string_form (l : list Z) :
  foldl (λ string_form dc,
           let coefficient := dc.2 in
           if bool_decide (coefficient = 0) then string_form
           else
             let degree := len l - 1 - Z.of_nat dc.1 in
             let string_form := string_form +:+ sign_mark coefficient in
             let string_form :=
               string_form +:+ coefficient_number coefficient degree in
             string_form +:+ x_power degree)
        "" (enumerate (reverse l))
  = join (term_text <$> nonzero_terms l).
Proof.
  rewrite enumerate_reverse, foldl_fmap. unfold nonzero_terms.
  etrans; [|exact (str_loop_terms (reverse (enumerate l)) "")].
  apply foldl_ext_in. intros sf [d c] Hin. simpl.
  apply elem_of_reverse, elem_of_enumerate, lookup_lt_Some in Hin.
  replace (len l - 1 - Z.of_nat (length l - 1 - d)) with (Z.of_nat d)
    by (unfold len; lia).
  reflexivity.
Qed.

Lemma nonzero_terms_nil_iff (l : list Z) :
  nonzero_terms l = [] ↔ py_count l 0 = len l.
Proof.
  rewrite py_count_all_iff. unfold nonzero_terms. split.
  - intros Hnil. apply Forall_forall. intros c Hc.
    apply list_elem_of_lookup in Hc as [d Hd].
    destruct (decide (c = 0)) as [|Hne]; [done|].
    assert ((d, c) ∈ filter (λ t : nat * Z, t.2 ≠ 0) (reverse (enumerate l)))
      as Hin.
    { apply list_elem_of_filter. split; [done|].
      by apply elem_of_reverse, elem_of_enumerate. }
    rewrite Hnil in Hin. by apply elem_of_nil in Hin.
  - intros Hz. destruct (filter _ _) as [|[d c] ts] eqn:Hf; [reflexivity|].
    assert ((d, c) ∈ filter (λ t : nat * Z, t.2 ≠ 0) (reverse (enumerate l)))
      as Hin by (rewrite Hf; left).
    apply list_elem_of_filter in Hin as [Hne Hin]. simpl in Hne.
    apply elem_of_reverse, elem_of_enumerate in Hin.
    apply list_elem_of_lookup_2 in Hin.
    rewrite Forall_forall in Hz. by apply Hz in Hin.
Qed.

(** [__str__] follows the rendering rule on every polynomial. *)
Lemma str_rendering (p : Polynomial) : __str__ p = rendering (components p).
Proof.
  destruct p as [l]. unfold __str__, rendering, components. simpl.
  rewrite str_string_form.
  case_bool_decide as Hz.
  - apply nonzero_terms_nil_iff in Hz. rewrite Hz. reflexivity.
  - destruct (nonzero_terms l) as [|[d c] ts] eqn:Hts.
    { exfalso. apply Hz, nonzero_terms_nil_iff, Hts. }
    simpl. unfold term_text at 1. simpl.
    case_decide; reflexivity.
Qed.

Lemma elem_of_nonzero_terms (l : list Z) (d : nat) (c : Z) :
  (d, c) ∈ nonzero_terms l ↔ l !! d = Some c ∧ c ≠ 0.
Proof.
  unfold nonzero_terms.
  rewrite list_elem_of_filter, elem_of_reverse, elem_of_enumerate. simpl. tauto.
Qed.

Lemma StronglySorted_filter {A : Type} (R : relation A) (P : A → Prop)
    `{∀ x, Decision (P x)} (l : list A) :
  StronglySorted R l → StronglySorted R (filter P l).
Proof.
  induction 1 as [|x l Hl IH Hx]; [constructor|].
  rewrite filter_cons. case_decide; [|exact IH].
  constructor; [exact IH|].
  apply Forall_forall. intros y Hy. apply list_elem_of_filter in Hy as [_ Hy].
  rewrite Forall_forall in Hx. by apply Hx.
Qed.

Lemma reverse_enumerate_sorted {A : Type} (l : list A) :
  StronglySorted (λ t1 t2 : nat * A, (t2.1 < t1.1)%nat) (reverse (enumerate l)).
Proof.
  induction l as [|c l IH] using rev_ind; [constructor|].
  unfold enumerate in *. rewrite imap_app, reverse_app. simpl.
  constructor; [exact IH|].
  apply Forall_forall. intros [d x] Hin.
  apply elem_of_reverse, elem_of_enumerate, lookup_lt_Some in Hin.
  simpl. lia.
Qed.

Lemma nonzero_terms_sorted (l : list Z) :
  StronglySorted (λ t1 t2 : nat * Z, (t2.1 < t1.1)%nat) (nonzero_terms l).
Proof. apply StronglySorted_filter, reverse_enumerate_sorted. Qed.

Lemma term_numeral_empty_iff (d : nat) (c : Z) :
  term_numeral d c = "" ↔ Z.abs c = 1 ∧ d ≠ 0%nat.
Proof.
  unfold term_numeral. case_decide as Hcd; [tauto|].
  split; [|tauto]. intros Hp. by apply pretty_abs_nonempty in Hp.
Qed.

(** C2: for a polynomial with a nonzero coefficient, the rendering lists
    exactly the nonzero terms, in strictly descending degree order; each term
    is a sign mark, a numeral and a variable part, the numeral being omitted
    exactly when the coefficient is 1 or -1 and the degree is not 0 (and being
    the absolute value otherwise); the separator in front of the first term is
    stripped.  [1,-3,0,2] renders as "2x^3 - 3x + 1" and [1,1,-1] as
    "- x^2 + x + 1". *)
Theorem str_nonzero_terms_descending :
  (∀ p : Polynomial, Exists (λ c, c ≠ 0) (components p) →
     let ts := nonzero_terms (components p) in
     (∀ d c, (d, c) ∈ ts ↔ components p !! d = Some c ∧ c ≠ 0)
     ∧ StronglySorted (λ t1 t2 : nat * Z, (t2.1 < t1.1)%nat) ts
     ∧ ∃ t ts', ts = t :: ts'
         ∧ __str__ p = string_drop (if decide (0 < t.2) then 3 else 1)
                                   (join (term_text <$> ts)))
  ∧ (∀ (d : nat) (c : Z),
       term_text (d, c) = (if decide (0 < c) then " + " else " - ")
                            +:+ term_numeral d c +:+ term_variable d)
  ∧ (∀ (d : nat) (c : Z), term_numeral d c = "" ↔ Z.abs c = 1 ∧ d ≠ 0%nat)
  ∧ (∀ (d : nat) (c : Z),
       ¬ (Z.abs c = 1 ∧ d ≠ 0%nat) → term_numeral d c = pretty (Z.abs c))
  ∧ __str__ (Poly [1; -3; 0; 2]) = "2x^3 - 3x + 1"
  ∧ __str__ (Poly [1; 1; -1]) = "- x^2 + x + 1".
Proof.
  split; [|split; [|split; [|split; [|split]]]].
  - intros p Hnz ts. split; [|split].
    + intros d c. apply elem_of_nonzero_terms.
    + apply nonzero_terms_sorted.
    + rewrite str_rendering. unfold rendering. fold ts.
      destruct ts as [|t ts'] eqn:Hts; [|by exists t, ts'].
      exfalso. apply nonzero_terms_nil_iff, py_count_all_iff in Hts.
      apply Exists_exists in Hnz as (c & Hc & Hne).
      rewrite Forall_forall in Hts. by apply Hts in Hc.
  - reflexivity.
  - apply term_numeral_empty_iff.
  - intros d c Hn. unfold term_numeral. by rewrite decide_False.
  - vm_compute. reflexivity.
  - vm_compute. reflexivity.
Qed.

Lemma str_nonzero_terms_descending_witness :
  Exists (λ c, c ≠ 0) (components (Poly [1; 1; -1]))
  ∧ ∃ t ts', nonzero_terms (components (Poly [1; 1; -1])) = t :: ts'
      ∧ __str__ (Poly [1; 1; -1])
        = string_drop (if decide (0 < t.2) then 3 else 1)
            (join (term_text <$> nonzero_terms (components (Poly [1; 1; -1])))).
Proof.
  assert (Exists (λ c, c ≠ 0) (components (Poly [1; 1; -1]))) as Hnz
    by (left; discriminate).
  split; [exact Hnz|].
  apply (proj1 str_nonzero_terms_descending (Poly [1; 1; -1]) Hnz).
Defined.

(** ** Sums over index lists *)

Lemma sum_over_cons (i : nat) (l : list nat) (f : nat → Z) :
  sum_over (i :: l) f = f i + sum_over l f.
Proof. reflexivity. Qed.

Lemma sum_over_ext_in (l : list nat) (f g : nat → Z) :
  (∀ i, i ∈ l → f i = g i) → sum_over l f = sum_over l g.
Proof.
  induction l as [|i l IH]; intros Hfg; [reflexivity|].
  rewrite !sum_over_cons, Hfg by left. f_equal. apply IH.
  intros j Hj. apply Hfg. by right.
Qed.

Lemma sum_over_zero (l : list nat) : sum_over l (λ _, 0) = 0.
Proof. induction l as [|i l IH]; [reflexivity|]. by rewrite sum_over_cons, IH. Qed.

Lemma sum_over_add (l : list nat) (f g : nat → Z) :
  sum_over l (λ i, f i + g i) = sum_over l f + sum_over l g.
Proof.
  induction l as [|i l IH]; [reflexivity|]. rewrite !sum_over_cons, IH. lia.
Qed.

Lemma sum_over_scale (l : list nat) (c : Z) (f : nat → Z) :
  sum_over l (λ i, c * f i) = c * sum_over l f.
Proof.
  induction l as [|i l IH]; [unfold sum_over; simpl; lia|].
  rewrite !sum_over_cons, IH. lia.
Qed.

Lemma sum_over_fmap (g : nat → nat) (l : list nat) (f : nat → Z) :
  sum_over (g <$> l) f = sum_over l (λ i, f (g i)).
Proof.
  induction l as [|i l IH]; [reflexivity|].
  rewrite fmap_cons, !sum_over_cons, IH. reflexivity.
Qed.

Lemma sum_over_swap (l1 l2 : list nat) (f : nat → nat → Z) :
  sum_over l1 (λ i, sum_over l2 (λ j, f i j))
  = sum_over l2 (λ j, sum_over l1 (λ i, f i j)).
Proof.
  induction l1 as [|i l1 IH].
  - symmetry. apply sum_over_zero.
  - rewrite sum_over_cons, IH, <- sum_over_add. reflexivity.
Qed.

(** A sum that picks the one index [a]. *)
Lemma sum_over_pick (n a : nat) (f : nat → Z) :
  sum_over (seq 0 n) (λ k, if decide (a = k) then f k else 0)
  = if decide (a < n)%nat then f a else 0.
Proof.
  induction n as [|n IH]; [reflexivity|].
  rewrite sum_over_snoc, IH. repeat case_decide; subst; lia.
Qed.

Lemma sum_over_shift (n : nat) (f : nat → Z) :
  sum_over (seq 0 (S n)) f = f 0%nat + sum_over (seq 0 n) (λ i, f (S i)).
Proof.
  cbn [seq]. rewrite sum_over_cons, <- fmap_S_seq, sum_over_fmap. reflexivity.
Qed.

(** ** Coefficients, with 0 beyond the end of the list *)

Lemma coefficient_at_ge (l : list Z) (i : nat) :
  (length l ≤ i)%nat → coefficient_at l i = 0.
Proof. intros Hi. unfold coefficient_at. by rewrite lookup_ge_None_2. Qed.

Lemma coefficient_at_lookup (l : list Z) (i : nat) :
  (i < length l)%nat → l !! i = Some (coefficient_at l i).
Proof.
  intros Hi. unfold coefficient_at.
  destruct (lookup_lt_is_Some_2 l i Hi) as [c ->]. reflexivity.
Qed.

Lemma coefficient_at_pad_zeros (n : nat) (l : list Z) (i : nat) :
  coefficient_at (pad_zeros n l) i = coefficient_at l i.
Proof.
  unfold pad_zeros. destruct (decide (i < length l)%nat) as [Hi|Hi].
  - unfold coefficient_at. by rewrite lookup_app_l.
  - rewrite (coefficient_at_ge l) by lia. unfold coefficient_at.
    rewrite lookup_app_r by lia.
    destruct (replicate _ _ !! _) as [c|] eqn:Hc; [|reflexivity].
    apply lookup_replicate in Hc as [-> _]. reflexivity.
Qed.

Lemma list_eq_coefficients (a b : list Z) :
  length a = length b →
  (∀ i, coefficient_at a i = coefficient_at b i) → a = b.
Proof.
  intros Hlen Hc. apply list_eq. intros i.
  destruct (decide (i < length a)%nat) as [Hi|Hi].
  - rewrite !coefficient_at_lookup by lia. f_equal. apply Hc.
  - rewrite !lookup_ge_None_2 by lia. reflexivity.
Qed.

Lemma length_pad_zeros (n : nat) (l : list Z) :
  (length l ≤ n)%nat → length (pad_zeros n l) = n.
Proof.
  intros Hn. unfold pad_zeros. rewrite length_app, length_replicate. lia.
Qed.

(** [==] compares the coefficients degree by degree, a missing one being 0. *)
Lemma eq_lists_coefficients (a b : list Z) :
  __eq__ (Poly a) (Poly b) = true
  ↔ ∀ i, coefficient_at a i = coefficient_at b i.
Proof.
  rewrite eq_lists_iff. split.
  - intros Hpad i.
    rewrite <- (coefficient_at_pad_zeros (length a `max` length b) a).
    rewrite Hpad. apply coefficient_at_pad_zeros.
  - intros Hc. apply list_eq_coefficients.
    + rewrite !length_pad_zeros by lia. reflexivity.
    + intros i. rewrite !coefficient_at_pad_zeros. apply Hc.
Qed.

(** ** Equality as a relation *)

Lemma eq_coefficients (p q : Polynomial) :
  __eq__ p q = true
  ↔ ∀ i, coefficient_at (components p) i = coefficient_at (components q) i.
Proof. destruct p as [a], q as [b]. apply eq_lists_coefficients. Qed.

(** X1: [==] on polynomials is reflexive, symmetric and transitive. *)
Theorem eq_is_equivalence :
  (∀ p : Polynomial, __eq__ p p = true)
  ∧ (∀ p q : Polynomial, __eq__ p q = __eq__ q p)
  ∧ (∀ p q r : Polynomial,
       __eq__ p q = true → __eq__ q r = true → __eq__ p r = true).
Proof.
  split; [|split].
  - intros p. by apply eq_coefficients.
  - intros p q. apply eq_true_iff_eq. rewrite !eq_coefficients.
    split; intros H i; symmetry; apply H.
  - intros p q r. rewrite !eq_coefficients. intros Hpq Hqr i.
    by rewrite Hpq, Hqr.
Qed.

Lemma eq_is_equivalence_witness :
  __eq__ (Poly [1; 0; 1]) (Poly [1; 0; 1; 0; 0]) = true.
Proof.
  apply (proj2 (proj2 eq_is_equivalence)
           (Poly [1; 0; 1]) (Poly [1; 0; 1; 0]) (Poly [1; 0; 1; 0; 0]));
    reflexivity.
Defined.

(** ** Laws of addition *)

Lemma add_lists_coefficients (a b : list Z) :
  ∃ r, __add__ (Poly a) (Poly b) = Some (Poly r)
       ∧ length r = (length a `max` length b)%nat
       ∧ ∀ i, coefficient_at r i = coefficient_at b i + coefficient_at a i.
Proof.
  destruct (add_lists a b) as (r & Hr & Hlen & Hsum & Ha & Hb).
  exists r. split; [exact Hr|]. split; [unfold len in Hlen; lia|].
  intros i. destruct (decide (i < length b)%nat) as [Hib|Hib].
  - destruct (decide (i < length a)%nat) as [Hia|Hia].
    + unfold coefficient_at at 1.
      rewrite (Hsum i _ _ (coefficient_at_lookup a i Hia)
                 (coefficient_at_lookup b i Hib)).
      reflexivity.
    + unfold coefficient_at at 1 2. rewrite Hb by lia.
      rewrite (coefficient_at_ge a) by lia. simpl. lia.
  - unfold coefficient_at at 1 3. rewrite Ha by lia.
    rewrite (coefficient_at_ge b) by lia. simpl. lia.
Qed.

Lemma add_coefficients (a b : Polynomial) :
  ∃ r, __add__ a b = Some r
       ∧ length (components r)
         = (length (components a) `max` length (components b))%nat
       ∧ ∀ i, coefficient_at (components r) i
              = coefficient_at (components b) i
                + coefficient_at (components a) i.
Proof.
  destruct a as [a], b as [b].
  destruct (add_lists_coefficients a b) as (r & Hr & H).
  exists (Poly r). split; [exact Hr | exact H].
Qed.

Lemma polynomial_eq_coefficients (p q : Polynomial) :
  length (components p) = length (components q) →
  (∀ i, coefficient_at (components p) i = coefficient_at (components q) i) →
  p = q.
Proof.
  destruct p as [a], q as [b]. unfold components. simpl.
  intros Hlen Hc. f_equal. by apply list_eq_coefficients.
Qed.

Lemma coefficient_at_all_zero (l : list Z) (i : nat) :
  Forall (λ c, c = 0) l → coefficient_at l i = 0.
Proof.
  intros Hz. unfold coefficient_at.
  destruct (l !! i) as [c|] eqn:Hc; [|reflexivity].
  rewrite Forall_forall in Hz. apply (Hz c), list_elem_of_lookup. eauto.
Qed.

(** X2: addition is commutative: [a + b] and [b + a] both return, and they
    return polynomials with the same components. *)
Theorem add_commutative (a b : Polynomial) :
  ∃ r, __add__ a b = Some r ∧ __add__ b a = Some r.
Proof.
  destruct (add_coefficients a b) as (r1 & Hr1 & Hl1 & Hc1).
  destruct (add_coefficients b a) as (r2 & Hr2 & Hl2 & Hc2).
  exists r1. split; [exact Hr1|]. rewrite Hr2. f_equal.
  apply polynomial_eq_coefficients; [lia|].
  intros i. rewrite Hc1, Hc2. lia.
Qed.

(** X3: addition is associative: all four additions in [(a + b) + c] and
    [a + (b + c)] return, and the two results have the same components. *)
Theorem add_associative (a b c : Polynomial) :
  ∃ ab bc r, __add__ a b = Some ab ∧ __add__ b c = Some bc
             ∧ __add__ ab c = Some r ∧ __add__ a bc = Some r.
Proof.
  destruct (add_coefficients a b) as (ab & Hab & Hl1 & Hc1).
  destruct (add_coefficients b c) as (bc & Hbc & Hl2 & Hc2).
  destruct (add_coefficients ab c) as (r1 & Hr1 & Hl3 & Hc3).
  destruct (add_coefficients a bc) as (r2 & Hr2 & Hl4 & Hc4).
  exists ab, bc, r1. repeat split; [exact Hab | exact Hbc | exact Hr1 |].
  rewrite Hr2. f_equal. apply polynomial_eq_coefficients; [lia|].
  intros i. rewrite Hc3, Hc4, Hc1, Hc2. lia.
Qed.

(** X4: adding a polynomial whose coefficients are all zero, on either side,
    gives a polynomial equal to the other operand under [==]. *)
Theorem add_zero_polynomial (p z : Polynomial) :
  Forall (λ c, c = 0) (components z) →
  (∃ r, __add__ p z = Some r ∧ __eq__ r p = true)
  ∧ (∃ r, __add__ z p = Some r ∧ __eq__ r p = true).
Proof.
  intros Hz. split.
  - destruct (add_coefficients p z) as (r & -> & _ & Hc).
    exists r. split; [reflexivity|].
    apply eq_coefficients. intros i.
    rewrite Hc, (coefficient_at_all_zero _ _ Hz). lia.
  - destruct (add_coefficients z p) as (r & -> & _ & Hc).
    exists r. split; [reflexivity|].
    apply eq_coefficients. intros i.
    rewrite Hc, (coefficient_at_all_zero _ _ Hz). lia.
Qed.

Lemma add_zero_polynomial_witness :
  ∃ r, __add__ (Poly [4; -1]) (__init__ (FromKwargs ∅)) = Some r
       ∧ __eq__ r (Poly [4; -1]) = true.
Proof.
  apply (add_zero_polynomial (Poly [4; -1]) (__init__ (FromKwargs ∅))).
  repeat constructor.
Defined.

(** X5: addition respects [==]: equal operands give equal sums. *)
Theorem add_respects_eq (p p' q q' : Polynomial) :
  __eq__ p p' = true → __eq__ q q' = true →
  ∃ r r', __add__ p q = Some r ∧ __add__ p' q' = Some r'
          ∧ __eq__ r r' = true.
Proof.
  rewrite !eq_coefficients. intros Ha Hb.
  destruct (add_coefficients p q) as (r & -> & _ & Hc).
  destruct (add_coefficients p' q') as (r' & -> & _ & Hc').
  exists r, r'. repeat split.
  apply eq_coefficients. intros i. rewrite Hc, Hc', Ha, Hb. reflexivity.
Qed.

Lemma add_respects_eq_witness :
  ∃ r r', __add__ (Poly [1; 2]) (Poly [0; 0; 3]) = Some r
          ∧ __add__ (Poly [1; 2; 0]) (Poly [0; 0; 3; 0]) = Some r'
          ∧ __eq__ r r' = true.
Proof.
  apply (add_respects_eq (Poly [1; 2]) (Poly [1; 2; 0])
           (Poly [0; 0; 3]) (Poly [0; 0; 3; 0])); reflexivity.
Defined.

(** ** Evaluation as a sum *)

Lemma count_value_horner (p : Polynomial) (x : Z) :
  __count_value p x = horner (components p) x.
Proof.
  destruct p as [l]. unfold components. simpl.
  induction l as [|c l IH]; [reflexivity|].
  change (__count_value (Poly (c :: l)) x = c + x * horner l x).
  rewrite count_value_cons. f_equal. f_equal. exact IH.
Qed.

Lemma horner_sum (l : list Z) (x : Z) (n : nat) :
  (length l ≤ n)%nat →
  horner l x
  = sum_over (seq 0 n) (λ i, coefficient_at l i * x ^ Z.of_nat i).
Proof.
  revert n. induction l as [|c l IH]; intros n Hn.
  - simpl. rewrite <- (sum_over_zero (seq 0 n)).
    apply sum_over_ext_in. intros i _. reflexivity.
  - destruct n as [|n]; [simpl in Hn; lia|].
    rewrite sum_over_shift. cbn [horner foldr]. fold (horner l x).
    rewrite (IH n) by (simpl in Hn; lia).
    rewrite <- sum_over_scale. f_equal.
    + unfold coefficient_at. simpl. lia.
    + apply sum_over_ext_in. intros i _.
      rewrite Nat2Z.inj_succ, Z.pow_succ_r by lia.
      unfold coefficient_at. simpl. lia.
Qed.

(** X6: at every integer point, evaluation by direct summation agrees with
    Horner's scheme, and the value at the integer 0 is the constant
    coefficient (0 when there is none). *)
Theorem at_value_horner (p : Polynomial) (x : Z) :
  at_value p x None = horner (components p) x
  ∧ at_value p 0 None = coefficient_at (components p) 0.
Proof.
  unfold at_value. rewrite !count_value_horner. split; [reflexivity|].
  destruct (components p) as [|c l]; [reflexivity|].
  unfold coefficient_at. simpl. lia.
Qed.

(** X7: the value of a sum is the sum of the values. *)
Theorem at_value_add (a b : Polynomial) (x : Z) :
  ∃ r, __add__ a b = Some r
       ∧ at_value r x None = at_value a x None + at_value b x None.
Proof.
  destruct (add_coefficients a b) as (r & Hr & Hlen & Hc).
  exists r. split; [exact Hr|].
  unfold at_value. rewrite !count_value_horner.
  rewrite (horner_sum (components r) x (length (components r))) by lia.
  rewrite (horner_sum (components a) x (length (components r))) by lia.
  rewrite (horner_sum (components b) x (length (components r))) by lia.
  rewrite <- sum_over_add. apply sum_over_ext_in. intros i _.
  rewrite Hc. lia.
Qed.

(** X8: polynomials that are equal under [==] have the same value at every
    point. *)
Theorem eq_same_value (p q : Polynomial) (x : Z) :
  __eq__ p q = true → at_value p x None = at_value q x None.
Proof.
  rewrite eq_coefficients. intros Hc.
  unfold at_value. rewrite !count_value_horner.
  set (n := (length (components p) `max` length (components q))%nat).
  rewrite (horner_sum (components p) x n) by lia.
  rewrite (horner_sum (components q) x n) by lia.
  apply sum_over_ext_in. intros i _. by rewrite Hc.
Qed.

Lemma eq_same_value_witness :
  at_value (Poly [1; 0; 1]) 5 None = at_value (Poly [1; 0; 1; 0]) 5 None.
Proof. apply (eq_same_value (Poly [1; 0; 1]) (Poly [1; 0; 1; 0]) 5). reflexivity. Defined.

(** ** Laws of multiplication and power *)

Lemma length_convolution_nat (u v : list Z) :
  length (convolution u v) = (length u + length v - 1)%nat.
Proof. pose proof (length_convolution u v) as H. unfold len in H. lia. Qed.

Lemma coefficient_at_convolution (u v : list Z) (k : nat) :
  (k < length (convolution u v))%nat →
  coefficient_at (convolution u v) k = convolution_entry u v k.
Proof.
  intros Hk. unfold coefficient_at. by rewrite lookup_convolution.
Qed.

Lemma horner_convolution (u v : list Z) (x : Z) :
  horner (convolution u v) x = horner u x * horner v x.
Proof.
  pose proof (length_convolution_nat u v) as HL.
  rewrite (horner_sum (convolution u v) x (length (convolution u v))) by lia.
  rewrite (horner_sum u x (length u)), (horner_sum v x (length v)) by lia.
  set (A := λ i : nat, coefficient_at u i * x ^ Z.of_nat i).
  set (B := λ j : nat, coefficient_at v j * x ^ Z.of_nat j).
  transitivity
    (sum_over (seq 0 (length (convolution u v))) (λ k,
       sum_over (seq 0 (length u)) (λ i,
         sum_over (seq 0 (length v)) (λ j,
           if decide ((i + j)%nat = k) then A i * B j else 0)))).
  { apply sum_over_ext_in. intros k Hk. apply elem_of_seq in Hk.
    rewrite coefficient_at_convolution by lia. unfold convolution_entry.
    rewrite Z.mul_comm, <- sum_over_scale.
    apply sum_over_ext_in. intros i _. rewrite <- sum_over_scale.
    apply sum_over_ext_in. intros j _. unfold A, B.
    case_decide; [|lia]. subst k.
    rewrite Nat2Z.inj_add, Z.pow_add_r by lia. lia. }
  rewrite (sum_over_swap (seq 0 (length (convolution u v))) (seq 0 (length u))
             (λ k i, sum_over (seq 0 (length v)) (λ j,
                if decide ((i + j)%nat = k) then A i * B j else 0))).
  rewrite (Z.mul_comm (sum_over _ A)), <- sum_over_scale.
  apply sum_over_ext_in. intros i Hi. apply elem_of_seq in Hi.
  rewrite (sum_over_swap (seq 0 (length (convolution u v))) (seq 0 (length v))
             (λ k j, if decide ((i + j)%nat = k) then A i * B j else 0)).
  rewrite Z.mul_comm, <- sum_over_scale.
  apply sum_over_ext_in. intros j Hj. apply elem_of_seq in Hj.
  rewrite (sum_over_pick (length (convolution u v)) (i + j)%nat
             (λ _, A i * B j)).
  rewrite decide_True by lia. reflexivity.
Qed.

Lemma convolution_commutative (u v : list Z) :
  convolution u v = convolution v u.
Proof.
  apply list_eq_coefficients.
  - rewrite !length_convolution_nat. lia.
  - intros k. destruct (decide (k < length (convolution u v))%nat) as [Hk|Hk].
    + rewrite !coefficient_at_convolution
        by (rewrite ?length_convolution_nat in *; lia).
      unfold convolution_entry. rewrite sum_over_swap.
      apply sum_over_ext_in. intros j _.
      apply sum_over_ext_in. intros i _.
      repeat case_decide; lia.
    + rewrite !coefficient_at_ge
        by (rewrite ?length_convolution_nat in *; lia).
      reflexivity.
Qed.

Lemma convolution_one_l (s : list Z) : convolution [1] s = s.
Proof.
  apply list_eq_coefficients.
  - rewrite length_convolution_nat. simpl. lia.
  - intros k. destruct (decide (k < length s)%nat) as [Hk|Hk].
    + rewrite coefficient_at_convolution
        by (rewrite length_convolution_nat; simpl; lia).
      unfold convolution_entry. cbn [length seq]. rewrite sum_over_cons.
      change (sum_over [] _) with 0. rewrite Z.add_0_r.
      rewrite (sum_over_ext_in _ _
                 (λ j, if decide (k = j) then coefficient_at s j else 0)).
      * rewrite sum_over_pick. by rewrite decide_True.
      * intros j _. unfold coefficient_at at 1. simpl.
        repeat case_decide; lia.
    + rewrite !coefficient_at_ge
        by (rewrite ?length_convolution_nat; simpl; lia).
      reflexivity.
Qed.

Lemma pow_components (p : Polynomial) (n : Z) :
  __pow__ p n
  = Some (Poly (Nat.iter (Z.to_nat n) (λ u, convolution u (components p)) [1])).
Proof. unfold __pow__, range. rewrite pow_loop. reflexivity. Qed.

(** X9: multiplying is commutative: multiplying [p] by the components of
    [q] and [q] by the components of [p] both return, and they return the
    same list. *)
Theorem multiply_components_commutative (p q : Polynomial) :
  ∃ r, __multiply_components p (components q) = Some r
       ∧ __multiply_components q (components p) = Some r.
Proof.
  exists (convolution (components q) (components p)).
  rewrite !multiply_components_convolution. split; [reflexivity|].
  f_equal. apply convolution_commutative.
Qed.

(** X10: the first power of a polynomial has exactly its components. *)
Theorem pow_one (p : Polynomial) : __pow__ p 1 = Some p.
Proof.
  rewrite pow_components. simpl. rewrite convolution_one_l.
  destruct p. reflexivity.
Qed.

(** X11: for a non-negative exponent, the value of [p ** n] at a point is
    the [n]-th power of the value of [p] there. *)
Theorem at_value_pow (p : Polynomial) (n x : Z) :
  0 ≤ n →
  ∃ r, __pow__ p n = Some r ∧ at_value r x None = at_value p x None ^ n.
Proof.
  intros Hn. rewrite pow_components. eexists. split; [reflexivity|].
  unfold at_value. rewrite !count_value_horner. unfold components at 1. simpl.
  rewrite <- (Z2Nat.id n) at 2 by lia.
  induction (Z.to_nat n) as [|k IH]; [simpl; lia|].
  rewrite Nat2Z.inj_succ, Z.pow_succ_r by lia. simpl.
  rewrite horner_convolution, IH. lia.
Qed.

Lemma at_value_pow_witness :
  ∃ r, __pow__ (Poly [-1; 1]) 3 = Some r
       ∧ at_value r 5 None = at_value (Poly [-1; 1]) 5 None ^ 3.
Proof. apply (at_value_pow (Poly [-1; 1]) 3 5). lia. Defined.

(** X12: for a polynomial with at least one component and a non-negative
    exponent [n], [p ** n] has [n * (len - 1) + 1] components. *)
Theorem pow_length (p : Polynomial) (n : Z) :
  1 ≤ len (components p) → 0 ≤ n →
  ∃ r, __pow__ p n = Some r
       ∧ len (components r) = n * (len (components p) - 1) + 1.
Proof.
  intros Hp Hn. rewrite pow_components. eexists. split; [reflexivity|].
  unfold components at 1. simpl.
  rewrite <- (Z2Nat.id n) at 2 by lia.
  induction (Z.to_nat n) as [|k IH]; [reflexivity|].
  simpl Nat.iter. rewrite length_convolution, IH, Nat2Z.inj_succ. nia.
Qed.

Lemma pow_length_witness :
  ∃ r, __pow__ (Poly [-1; 0; 1]) 3 = Some r ∧ len (components r) = 7.
Proof.
  apply (pow_length (Poly [-1; 0; 1]) 3); [vm_compute; discriminate | lia].
Defined.

(** ** Laws of the derivative *)

Lemma derivative_coefficients (p : Polynomial) :
  ∃ r, derivative p = Some r
       ∧ length (components r) = (length (components p) - 1)%nat
       ∧ ∀ d, coefficient_at (components r) d
              = coefficient_at (components p) (S d) * Z.of_nat (S d).
Proof.
  destruct p as [l]. destruct (derivative_lists l) as (r & Hr & Hlen & Hc).
  exists (Poly r). split; [exact Hr|]. split; [exact Hlen|].
  unfold components. simpl. intros d.
  destruct (decide (S d < length l)%nat) as [Hd|Hd].
  - unfold coefficient_at at 1.
    rewrite (Hc d _ (coefficient_at_lookup l (S d) Hd)). reflexivity.
  - rewrite !coefficient_at_ge by lia. lia.
Qed.

(** X13: the derivative of a sum is the sum of the derivatives: the sum,
    the three derivatives and the sum of the derivatives all return, and the
    derivative of the sum has the components of the sum of the derivatives. *)
Theorem derivative_add (a b : Polynomial) :
  ∃ ab da db r, __add__ a b = Some ab
                ∧ derivative a = Some da ∧ derivative b = Some db
                ∧ derivative ab = Some r ∧ __add__ da db = Some r.
Proof.
  destruct (add_coefficients a b) as (ab & Hab & Hl & Hc).
  destruct (derivative_coefficients a) as (da & Hda & Hla & Hca).
  destruct (derivative_coefficients b) as (db & Hdb & Hlb & Hcb).
  destruct (derivative_coefficients ab) as (r1 & Hr1 & Hl1 & Hc1).
  destruct (add_coefficients da db) as (r2 & Hr2 & Hl2 & Hc2).
  exists ab, da, db, r1.
  repeat split; [exact Hab | exact Hda | exact Hdb | exact Hr1 |].
  rewrite Hr2. f_equal. apply polynomial_eq_coefficients; [lia|].
  intros d. rewrite Hc1, Hc2, Hc, Hca, Hcb. lia.
Qed.

(** X14: the derivative respects [==]: equal polynomials have equal
    derivatives. *)
Theorem derivative_respects_eq (p q : Polynomial) :
  __eq__ p q = true →
  ∃ dp dq, derivative p = Some dp ∧ derivative q = Some dq
           ∧ __eq__ dp dq = true.
Proof.
  rewrite eq_coefficients. intros Hpq.
  destruct (derivative_coefficients p) as (dp & -> & _ & Hp).
  destruct (derivative_coefficients q) as (dq & -> & _ & Hq).
  exists dp, dq. repeat split.
  apply eq_coefficients. intros d. by rewrite Hp, Hq, Hpq.
Qed.

Lemma derivative_respects_eq_witness :
  ∃ dp dq, derivative (Poly [1; 3]) = Some dp
           ∧ derivative (Poly [1; 3; 0; 0]) = Some dq
           ∧ __eq__ dp dq = true.
Proof.
  apply (derivative_respects_eq (Poly [1; 3]) (Poly [1; 3; 0; 0])).
  reflexivity.
Defined.

(** ** Rendering and equality *)

Lemma filter_none {A : Type} (P : A → Prop) `{∀ x, Decision (P x)}
    (l : list A) :
  Forall (λ x, ¬ P x) l → filter P l = [].
Proof.
  induction 1 as [|x l Hx _ IH]; [reflexivity|].
  rewrite filter_cons, decide_False by done. exact IH.
Qed.

Lemma nonzero_terms_pad_zeros (n : nat) (l : list Z) :
  nonzero_terms (pad_zeros n l) = nonzero_terms l.
Proof.
  unfold nonzero_terms, pad_zeros, enumerate.
  rewrite imap_app, reverse_app, filter_app, filter_none; [reflexivity|].
  apply Forall_forall. intros [d c] Hin. simpl.
  rewrite elem_of_reverse in Hin. apply list_elem_of_lookup in Hin as [i Hi].
  rewrite list_lookup_imap in Hi.
  apply fmap_Some in Hi as (c' & Hc' & [= _ ->]).
  apply lookup_replicate in Hc' as [-> _]. tauto.
Qed.

(** X15: polynomials that are equal under [==] render as the same string,
    whatever their trailing zeros. *)
Theorem eq_same_str (p q : Polynomial) :
  __eq__ p q = true → __str__ p = __str__ q.
Proof.
  destruct p as [a], q as [b]. intros Heq.
  apply eq_lists_iff in Heq.
  change (__str__ (Poly a) = __str__ (Poly b)).
  rewrite !str_rendering. unfold components. simpl. unfold rendering.
  rewrite <- (nonzero_terms_pad_zeros (length a `max` length b) a).
  rewrite <- (nonzero_terms_pad_zeros (length a `max` length b) b).
  rewrite Heq. reflexivity.
Qed.

Lemma eq_same_str_witness :
  __str__ (Poly [1; -3; 0; 2]) = __str__ (Poly [1; -3; 0; 2; 0; 0]).
Proof.
  apply (eq_same_str (Poly [1; -3; 0; 2]) (Poly [1; -3; 0; 2; 0; 0])).
  reflexivity.
Defined.

Lemma pretty_app_not_zero (c : Z) (s : string) :
  c ≠ 0 → pretty (Z.abs c) +:+ s ≠ "0".
Proof.
  intros Hc Heq. pose proof (pretty_abs_nonempty c) as Hne.
  destruct (pretty (Z.abs c)) as [|a s'] eqn:Hp; [done|].
  change (String a (s' +:+ s) = "0") in Heq.
  injection Heq as -> Hs. destruct s' as [|a' s'']; [|discriminate Hs].
  change "0" with (pretty 0) in Hp. apply (inj pretty) in Hp. lia.
Qed.

(** X16: a polynomial renders as "0" exactly when all its coefficients are
    zero. *)
Theorem str_zero_iff (p : Polynomial) :
  __str__ p = "0" ↔ Forall (λ c, c = 0) (components p).
Proof.
  rewrite str_rendering. unfold rendering.
  rewrite <- py_count_all_iff, <- nonzero_terms_nil_iff.
  destruct (nonzero_terms (components p)) as [|[d c] ts] eqn:Hts; [done|].
  split; [|discriminate]. intros Hstr. exfalso.
  assert (c ≠ 0) as Hc.
  { assert ((d, c) ∈ nonzero_terms (components p)) as Hin
      by (rewrite Hts; left).
    by apply elem_of_nonzero_terms in Hin as [_ ?]. }
  revert Hstr. cbn [fmap list_fmap join foldr fst snd].
  unfold term_text. cbn [fst snd]. rewrite !string_app_assoc.
  case_decide as Hpos.
  - change (term_numeral d c +:+ term_variable d +:+ join (term_text <$> ts)
            ≠ "0").
    unfold term_numeral. case_decide as Hone.
    + destruct d as [|[|d]]; [lia | discriminate..].
    + by apply pretty_app_not_zero.
  - discriminate.
Qed.

(** ** Construction from named arguments *)

Lemma highest_degree_fold (l : list (Z * Z)) (h0 : Z) :
  let h := foldl (λ highest_degree kv,
                    if kv.1 >? highest_degree then kv.1 else highest_degree)
                 h0 l in
  h0 ≤ h
  ∧ (∀ kv, kv ∈ l → kv.1 ≤ h)
  ∧ (h = h0 ∨ ∃ kv, kv ∈ l ∧ kv.1 = h).
Proof.
  revert h0. induction l as [|kv l IH]; intros h0; simpl.
  - split; [lia|]. split; [|by left]. intros kv Hkv. by apply elem_of_nil in Hkv.
  - destruct (IH (if kv.1 >? h0 then kv.1 else h0)) as (Hle & Hall & Hin).
    destruct (Z.gtb_spec kv.1 h0) as [Hgt|Hngt].
    + split; [lia|]. split.
      * intros kv' [->|Hkv']%elem_of_cons; [lia | by apply Hall].
      * right. destruct Hin as [->|(kv' & Hkv' & <-)].
        -- exists kv. split; [left | reflexivity].
        -- exists kv'. split; [by right | reflexivity].
    + split; [lia|]. split.
      * intros kv' [->|Hkv']%elem_of_cons; [lia | by apply Hall].
      * destruct Hin as [->|(kv' & Hkv' & <-)]; [by left|].
        right. exists kv'. split; [by right | reflexivity].
Qed.

Lemma find_highest_degree_spec (kwargs : gmap Z Z) :
  0 ≤ find_highest_degree kwargs
  ∧ (∀ k v, kwargs !! k = Some v → k ≤ find_highest_degree kwargs)
  ∧ (find_highest_degree kwargs = 0
     ∨ is_Some (kwargs !! find_highest_degree kwargs)).
Proof.
  unfold find_highest_degree.
  destruct (highest_degree_fold (map_to_list kwargs) 0) as (Hle & Hall & Hin).
  split; [exact Hle|]. split.
  - intros k v Hk. apply (Hall (k, v)). by apply elem_of_map_to_list.
  - destruct Hin as [->|([k v] & Hkv & <-)]; [by left|].
    right. exists v. by apply elem_of_map_to_list.
Qed.

(** X17: for named arguments all of whose names are canonical (["x"]
    followed by the plain decimal writing of an integer [N], as [f"x{N}"]
    prints it), construction puts every supplied coefficient of a degree
    [N >= 0] at index [N] and 0 at every other index; the list ends at the
    highest supplied degree (index 0 when none is positive), and a canonical
    name with a negative degree raises nothing and leaves no trace. *)
Theorem init_kwargs_components (kwargs : gmap Z Z) :
  let l := components (__init__ (FromKwargs kwargs)) in
  (∀ k v, kwargs !! k = Some v → 0 ≤ k → l !! Z.to_nat k = Some v)
  ∧ (∀ (d : nat) c, l !! d = Some c → c = default 0 (kwargs !! Z.of_nat d))
  ∧ 1 ≤ len l
  ∧ (len l = 1 ∨ is_Some (kwargs !! (len l - 1))).
Proof.
  destruct (find_highest_degree_spec kwargs) as (H0 & Hmax & Htop).
  unfold components. simpl.
  destruct (0 <? size kwargs)%nat eqn:Hsize; simpl.
  - assert (∀ d : nat,
        ((λ degree : nat, default 0 (kwargs !! Z.of_nat degree))
           <$> range (find_highest_degree kwargs + 1)) !! d
        = if decide (Z.of_nat d ≤ find_highest_degree kwargs)
          then Some (default 0 (kwargs !! Z.of_nat d)) else None) as Hlook.
    { intros d. rewrite list_lookup_fmap. unfold range. case_decide.
      - rewrite lookup_seq_lt by lia. reflexivity.
      - rewrite lookup_seq_ge by lia. reflexivity. }
    repeat split.
    + intros k v Hk Hk0. rewrite Hlook, Z2Nat.id by lia.
      rewrite decide_True by eauto. by rewrite Hk.
    + intros d c. rewrite Hlook. case_decide; [|done]. by intros [= <-].
    + unfold len. rewrite length_fmap, length_range. lia.
    + unfold len. rewrite length_fmap, length_range.
      replace (Z.of_nat (Z.to_nat (find_highest_degree kwargs + 1)) - 1)
        with (find_highest_degree kwargs) by lia.
      destruct Htop as [->|Htop]; [by left | by right].
  - apply Nat.ltb_ge in Hsize.
    assert (kwargs = ∅) as -> by (apply map_size_empty_iff; lia).
    repeat split.
    + intros k v Hk. by rewrite lookup_empty in Hk.
    + intros [|d] c Hc; simpl in Hc; [by injection Hc as <- | done].
    + unfold len. simpl. lia.
    + by left.
Qed.

Lemma init_kwargs_components_witness :
  components (__init__ (FromKwargs (list_to_map [(0, 1); (3, 2); (-1, 9)])))
    !! Z.to_nat 3 = Some 2.
Proof.
  apply (proj1 (init_kwargs_components
                  (list_to_map [(0, 1); (3, 2); (-1, 9)])) 3 2);
    [reflexivity | lia].
Defined.

(** ** The product, coefficient by coefficient *)

Lemma sum_over_extend (n n' : nat) (f : nat → Z) :
  (n ≤ n')%nat → (∀ i, (n ≤ i)%nat → f i = 0) →
  sum_over (seq 0 n') f = sum_over (seq 0 n) f.
Proof.
  intros Hle Hz. induction n' as [|n' IH].
  - replace n with 0%nat by lia. reflexivity.
  - destruct (decide (n = S n')) as [->|Hne]; [reflexivity|].
    rewrite sum_over_snoc, IH, Hz by lia. lia.
Qed.

Lemma convolution_entry_cauchy (u v : list Z) (k : nat) :
  convolution_entry u v k
  = sum_over (seq 0 (S k)) (λ i, coefficient_at u i * coefficient_at v (k - i)).
Proof.
  unfold convolution_entry.
  set (g := λ i : nat, if decide (i ≤ k)%nat
                       then coefficient_at u i * coefficient_at v (k - i)
                       else 0).
  transitivity (sum_over (seq 0 (length u)) g).
  { apply sum_over_ext_in. intros i _. unfold g. case_decide as Hik.
    - rewrite (sum_over_ext_in _ _
        (λ j, if decide ((k - i)%nat = j)
              then coefficient_at u i * coefficient_at v j else 0))
        by (intros j _; repeat case_decide; lia).
      rewrite sum_over_pick. case_decide; [reflexivity|].
      rewrite (coefficient_at_ge v) by lia. lia.
    - etrans; [|apply (sum_over_zero (seq 0 (length v)))].
      apply sum_over_ext_in. intros j _. case_decide; lia. }
  transitivity (sum_over (seq 0 (length u `max` S k)) g).
  { symmetry. apply sum_over_extend; [lia|].
    intros i Hi. unfold g. rewrite (coefficient_at_ge u) by lia.
    case_decide; lia. }
  transitivity (sum_over (seq 0 (S k)) g).
  { apply sum_over_extend; [lia|].
    intros i Hi. unfold g. rewrite decide_False by lia. reflexivity. }
  apply sum_over_ext_in. intros i Hi. apply elem_of_seq in Hi.
  unfold g. rewrite decide_True by lia. reflexivity.
Qed.

Lemma convolution_coefficient (u v : list Z) (k : nat) :
  coefficient_at (convolution u v) k
  = sum_over (seq 0 (S k)) (λ i, coefficient_at u i * coefficient_at v (k - i)).
Proof.
  destruct (decide (k < length (convolution u v))%nat) as [Hk|Hk].
  - rewrite coefficient_at_convolution by done. apply convolution_entry_cauchy.
  - rewrite coefficient_at_ge by lia. rewrite length_convolution_nat in Hk.
    symmetry. etrans; [|apply (sum_over_zero (seq 0 (S k)))].
    apply sum_over_ext_in. intros i _.
    destruct (decide (i < length u)%nat).
    + rewrite (coefficient_at_ge v) by lia. lia.
    + rewrite (coefficient_at_ge u) by lia. lia.
Qed.

(** X18: one multiplication step computes the Cauchy product: coefficient
    [k] of the result is the sum of [u[i] * p[k - i]] for [i] from 0 to [k],
    a missing coefficient counting as 0. *)
Theorem multiply_components_cauchy (p : Polynomial) (u : list Z) :
  ∃ r, __multiply_components p u = Some r
       ∧ ∀ k, coefficient_at r k
              = sum_over (seq 0 (S k)) (λ i,
                  coefficient_at u i * coefficient_at (components p) (k - i)).
Proof.
  exists (convolution u (components p)).
  split; [apply multiply_components_convolution|].
  apply convolution_coefficient.
Qed.

Lemma iter_convolution_coefficients (s s' : list Z) (n : nat) :
  (∀ i, coefficient_at s i = coefficient_at s' i) →
  ∀ k, coefficient_at (Nat.iter n (λ u, convolution u s) [1]) k
       = coefficient_at (Nat.iter n (λ u, convolution u s') [1]) k.
Proof.
  intros Hs. induction n as [|n IH]; intros k; [reflexivity|].
  simpl. rewrite !convolution_coefficient.
  apply sum_over_ext_in. intros i _. by rewrite IH, Hs.
Qed.

(** X19: power respects [==]: equal polynomials have equal powers. *)
Theorem pow_respects_eq (p q : Polynomial) (n : Z) :
  __eq__ p q = true →
  ∃ r r', __pow__ p n = Some r ∧ __pow__ q n = Some r'
          ∧ __eq__ r r' = true.
Proof.
  rewrite eq_coefficients. intros Hpq. rewrite !pow_components.
  eexists _, _. split; [reflexivity|]. split; [reflexivity|].
  apply eq_lists_coefficients. by apply iter_convolution_coefficients.
Qed.

Lemma pow_respects_eq_witness :
  ∃ r r', __pow__ (Poly [-1; 1]) 2 = Some r
          ∧ __pow__ (Poly [-1; 1; 0]) 2 = Some r'
          ∧ __eq__ r r' = true.
Proof.
  apply (pow_respects_eq (Poly [-1; 1]) (Poly [-1; 1; 0]) 2). reflexivity.
Defined.
